(** * High-Performance Trade Simulator: order book, cost estimators, feed client

    A shallow embedding of the Python sources

      - [utils/orderbook.py]      (class [OrderBook])
      - [models/slippage.py]      (class [SlippageModel])
      - [models/maker_taker.py]   (class [MakerTakerModel])
      - [models/market_impact.py] (class [MarketImpactModel])
      - [ws/okx_ws.py]            (class [OKXWebsocket])

    Conventions.

    - Python [float]s are idealised as exact rationals ([Qc], the canonical
      rationals, so that Python's [==] on numbers is Leibniz equality and
      prices can key a [gmap]).  Rounding, infinities and NaN are outside
      the model.
    - A Python call either returns or raises: [result A] is [Ok a] or
      [Raise e].  [None] is [option]'s [None].
    - Mutable objects are records; a method takes the record and returns
      the updated record next to its result. *)

From Stdlib Require Import QArith Qcanon Lqa ZArith Lia Ascii.
From stdpp Require Import gmap list sorting strings.

Set Default Proof Using "Type".

(** ** Python numbers *)

Module PyNum.
Local Open Scope Qc_scope.

(** Decimal literals: [dec n d] is the number [n / d]. *)
Definition dec (n : Z) (d : positive) : Qc := Q2Qc (n # d).

(** The integer [n] as a float. *)
Definition ofZ (n : Z) : Qc := Q2Qc (inject_Z n).

(** [int(x)]: truncation toward zero. *)
Definition py_int (x : Qc) : Z := Z.quot (Qnum x) (Zpos (Qden x)).

(** Truthiness of a number: [0] and [0.0] are falsy. *)
Definition truthy (x : Qc) : bool := bool_decide (x ≠ 0).

(** [min(a, b)] returns [a] unless [b < a]; [max(a, b)] returns [a] unless
    [b > a]. *)
Definition py_min (a b : Qc) : Qc := if decide (b < a) then b else a.
Definition py_max (a b : Qc) : Qc := if decide (a < b) then b else a.

(** [sum(...)] over a list of numbers. *)
Definition py_sum (l : list Qc) : Qc := foldr Qcplus 0 l.

(** [l[:k]] for an arbitrary Python integer [k]: a negative bound counts
    from the end. *)
Definition slice_to {A} (k : Z) (l : list A) : list A :=
  if decide (k < 0)%Z
  then take (length l - Z.to_nat (- k)) l
  else take (Z.to_nat k) l.

(** [l[-k:]] for a positive [k]: the last [k] elements. *)
Definition last_n {A} (k : nat) (l : list A) : list A :=
  drop (length l - k) l.

(** [s.lower()] on ASCII strings. *)
Definition lower_ascii (c : ascii) : ascii :=
  let n := nat_of_ascii c in
  if decide (65 ≤ n ≤ 90)%nat then ascii_of_nat (n + 32) else c.

Fixpoint lower (s : string) : string :=
  match s with
  | EmptyString => EmptyString
  | String c s' => String (lower_ascii c) (lower s')
  end.

(** *** From [Qc] to [Q] for linear arithmetic *)

Lemma this_plus (x y : Qc) : (this (x + y) == this x + this y)%Q.
Proof. apply Qred_correct. Qed.

Lemma this_mult (x y : Qc) : (this (x * y) == this x * this y)%Q.
Proof. apply Qred_correct. Qed.

Lemma this_opp (x : Qc) : (this (- x) == - this x)%Q.
Proof. apply Qred_correct. Qed.

Lemma this_minus (x y : Qc) : (this (x - y) == this x - this y)%Q.
Proof. unfold Qcminus. rewrite this_plus, this_opp. reflexivity. Qed.

Lemma this_inv (x : Qc) : (this (/ x) == / this x)%Q.
Proof. apply Qred_correct. Qed.

Lemma this_div (x y : Qc) : (this (x / y) == this x / this y)%Q.
Proof. unfold Qcdiv. rewrite this_mult, this_inv. reflexivity. Qed.

Lemma this_Q2Qc (q : Q) : (this (Q2Qc q) == q)%Q.
Proof. apply Qred_correct. Qed.

Lemma this_dec n d : (this (dec n d) == n # d)%Q.
Proof. apply Qred_correct. Qed.

Lemma this_ofZ n : (this (ofZ n) == inject_Z n)%Q.
Proof. apply Qred_correct. Qed.

Lemma Qc_eq_this (x y : Qc) : x = y ↔ (this x == this y)%Q.
Proof.
  split; [intros ->; reflexivity|]. intros H. apply Qc_is_canon, H.
Qed.

Lemma Qc_le_this (x y : Qc) : x ≤ y ↔ (this x <= this y)%Q.
Proof. reflexivity. Qed.

Lemma Qc_lt_this (x y : Qc) : x < y ↔ (this x < this y)%Q.
Proof. reflexivity. Qed.

End PyNum.

(** Move every [Qc] (in)equation of the context and the goal to [Q], where
    [lra] and [nra] work. *)
Ltac qc_push :=
  repeat match goal with
  | H : context [@eq Qc _ _] |- _ => rewrite PyNum.Qc_eq_this in H
  | H : context [Qcle _ _] |- _ => rewrite PyNum.Qc_le_this in H
  | H : context [Qclt _ _] |- _ => rewrite PyNum.Qc_lt_this in H
  | |- context [@eq Qc _ _] => rewrite PyNum.Qc_eq_this
  | |- context [Qcle _ _] => rewrite PyNum.Qc_le_this
  | |- context [Qclt _ _] => rewrite PyNum.Qc_lt_this
  end;
  repeat match goal with
  | H : _ |- _ =>
      progress rewrite ?PyNum.this_plus, ?PyNum.this_minus, ?PyNum.this_mult,
        ?PyNum.this_opp, ?PyNum.this_div, ?PyNum.this_inv, ?PyNum.this_dec,
        ?PyNum.this_ofZ, ?PyNum.this_Q2Qc in H
  end;
  repeat (progress rewrite ?PyNum.this_plus, ?PyNum.this_minus, ?PyNum.this_mult,
    ?PyNum.this_opp, ?PyNum.this_div, ?PyNum.this_inv, ?PyNum.this_dec,
    ?PyNum.this_ofZ, ?PyNum.this_Q2Qc);
  change (this 0%Qc) with 0%Q in *;
  change (this 1%Qc) with 1%Q in *;
  unfold Qdiv in *; cbn [Qinv Qnum Qden] in *.

Ltac qc_lra := qc_push; lra.

Ltac case_minmax :=
  unfold PyNum.py_min, PyNum.py_max in *; repeat case_decide.

(** ** Python results *)

Inductive exn : Type :=
  | TypeError
  | ZeroDivisionError
  | ValueError
  | IndexError.

Inductive result (A : Type) : Type :=
  | Ok (a : A)
  | Raise (e : exn).
Arguments Ok {A} a.
Arguments Raise {A} e.

Global Instance exn_eq_dec : EqDecision exn.
Proof. solve_decision. Defined.

Global Instance result_eq_dec {A} `{EqDecision A} : EqDecision (result A).
Proof. solve_decision. Defined.


Definition bind {A B} (r : result A) (k : A → result B) : result B :=
  match r with
  | Ok a => k a
  | Raise e => Raise e
  end.

Notation "'let!' x ':=' r 'in' k" := (bind r (λ x, k))
  (at level 10, x name, r at level 100, k at level 200).

(** [a / b] on floats raises [ZeroDivisionError] when [b] is zero. *)
Definition py_div (a b : Qc) : result Qc :=
  if decide (b = 0%Qc) then Raise ZeroDivisionError else Ok (a / b)%Qc.

(** ** [utils/orderbook.py]: class [OrderBook] *)

Module OrderBook.
Local Open Scope Qc_scope.
Import PyNum.

(** A price level [[price, quantity]]. *)
Definition level : Type := Qc * Qc.

Record t : Type := mk {
  symbol : string;
  max_depth : Z;
  asks : list level;               (* [[price, quantity], ...] *)
  bids : list level;
  ask_dict : gmap Qc Qc;           (* {price: quantity} *)
  bid_dict : gmap Qc Qc;
  timestamp : Z;
  last_update_id : Z;
  mid_price_history : list Qc;
  spread_history : list Qc;
  depth_history : list (Qc * Qc);
  update_count : Z
}.

(** [OrderBook.__init__] *)
Definition init (symbol : string) (max_depth : Z) : t :=
  {| symbol := symbol; max_depth := max_depth;
     asks := []; bids := []; ask_dict := ∅; bid_dict := ∅;
     timestamp := 0; last_update_id := 0;
     mid_price_history := []; spread_history := []; depth_history := [];
     update_count := 0 |}.

(** One iteration of the loops of [update]:
    [if quantity > 0: d[price] = quantity else: d.pop(price, None)]. *)
Definition apply_delta (d : gmap Qc Qc) (pq : level) : gmap Qc Qc :=
  if decide (0 < pq.2) then <[pq.1 := pq.2]> d else delete pq.1 d.

Definition apply_deltas (d : gmap Qc Qc) (l : list level) : gmap Qc Qc :=
  foldl apply_delta d l.

(** Python orders the [(price, qty)] tuples of [d.items()]
    lexicographically. *)
Definition tuple_le (a b : level) : Prop :=
  a.1 < b.1 ∨ (a.1 = b.1 ∧ a.2 ≤ b.2).

Global Instance tuple_le_dec : RelDecision tuple_le.
Proof. intros a b. unfold tuple_le. apply _. Defined.

(** [sorted(d.items())] and [sorted(d.items(), reverse=True)] *)
Definition sorted_items (d : gmap Qc Qc) : list level :=
  merge_sort tuple_le (map_to_list d).
Definition sorted_items_reverse (d : gmap Qc Qc) : list level :=
  merge_sort (flip tuple_le) (map_to_list d).

(** [if len(l) > max_depth: l = l[:max_depth]] *)
Definition limit_depth (max_depth : Z) (l : list level) : list level :=
  if decide (max_depth < Z.of_nat (length l))%Z then slice_to max_depth l else l.

(** [OrderBook._rebuild_arrays] *)
Definition _rebuild_arrays (ob : t) : t :=
  {| symbol := symbol ob; max_depth := max_depth ob;
     asks := limit_depth (max_depth ob) (sorted_items (ask_dict ob));
     bids := limit_depth (max_depth ob) (sorted_items_reverse (bid_dict ob));
     ask_dict := ask_dict ob; bid_dict := bid_dict ob;
     timestamp := timestamp ob; last_update_id := last_update_id ob;
     mid_price_history := mid_price_history ob;
     spread_history := spread_history ob;
     depth_history := depth_history ob;
     update_count := update_count ob |}.

(** [history.append(x)] followed by the cap
    [if len(history) > 1000: history = history[-1000:]]; the three
    histories always have the same length, so the test on
    [mid_price_history] decides for all of them. *)
Definition max_history : nat := 1000.

Definition cap_history {A} (cut : bool) (l : list A) : list A :=
  if cut then last_n max_history l else l.

(** [OrderBook._update_statistics] *)
Definition _update_statistics (ob : t) : result unit * t :=
  match asks ob, bids ob with
  | [], _ | _, [] => (Ok (), ob)
  | (best_ask, _) :: _, (best_bid, _) :: _ =>
      let mid_price := (best_ask + best_bid) / dec 2 1 in
      let spread := best_ask - best_bid in
      match py_div spread mid_price with
      | Raise e => (Raise e, ob)
      | Ok ratio =>
          let spread_bps := ratio * dec 10000 1 in
          let depth_range := mid_price * dec 1 100 in
          let ask_depth :=
            py_sum ((filter (λ l : level, l.1 ≤ mid_price + depth_range) (asks ob)).*2) in
          let bid_depth :=
            py_sum ((filter (λ l : level, mid_price - depth_range ≤ l.1) (bids ob)).*2) in
          let mids := mid_price_history ob ++ [mid_price] in
          let cut := bool_decide (max_history < length mids)%nat in
          (Ok (),
           {| symbol := symbol ob; max_depth := max_depth ob;
              asks := asks ob; bids := bids ob;
              ask_dict := ask_dict ob; bid_dict := bid_dict ob;
              timestamp := timestamp ob; last_update_id := last_update_id ob;
              mid_price_history := cap_history cut mids;
              spread_history := cap_history cut (spread_history ob ++ [spread_bps]);
              depth_history := cap_history cut (depth_history ob ++ [(ask_depth, bid_depth)]);
              update_count := update_count ob |})
      end
  end.

(** [OrderBook.update]: the book is mutated in place, so the caller sees
    the new dictionaries and arrays also when the statistics step raises. *)
Definition update (ob : t) (new_asks new_bids : list level) (ts : Z)
    : result unit * t :=
  _update_statistics
    (_rebuild_arrays
       {| symbol := symbol ob; max_depth := max_depth ob;
          asks := asks ob; bids := bids ob;
          ask_dict := apply_deltas (ask_dict ob) new_asks;
          bid_dict := apply_deltas (bid_dict ob) new_bids;
          timestamp := ts; last_update_id := last_update_id ob;
          mid_price_history := mid_price_history ob;
          spread_history := spread_history ob;
          depth_history := depth_history ob;
          update_count := (update_count ob + 1)%Z |}).

(** A recorded call [update(asks, bids, timestamp)], and the book after a
    sequence of calls. *)
Definition call : Type := list level * list level * Z.

Definition run (ob : t) (calls : list call) : t :=
  foldl (λ ob c, (update ob c.1.1 c.1.2 c.2).2) ob calls.

(** [OrderBook.get_best_ask], [OrderBook.get_best_bid]:
    [(price, quantity)] or [(None, None)]. *)
Definition get_best_ask (ob : t) : option Qc * option Qc :=
  match asks ob with
  | (p, q) :: _ => (Some p, Some q)
  | [] => (None, None)
  end.

Definition get_best_bid (ob : t) : option Qc * option Qc :=
  match bids ob with
  | (p, q) :: _ => (Some p, Some q)
  | [] => (None, None)
  end.

(** [OrderBook.get_mid_price]: the test [best_ask_price and best_bid_price]
    is by truthiness. *)
Definition get_mid_price (ob : t) : option Qc :=
  match (get_best_ask ob).1, (get_best_bid ob).1 with
  | Some best_ask_price, Some best_bid_price =>
      if truthy best_ask_price && truthy best_bid_price
      then Some ((best_ask_price + best_bid_price) / dec 2 1)
      else None
  | _, _ => None
  end.

(** [OrderBook.get_spread] *)
Definition get_spread (ob : t) : result (option Qc) :=
  match (get_best_ask ob).1, (get_best_bid ob).1 with
  | Some best_ask_price, Some best_bid_price =>
      if truthy best_ask_price && truthy best_bid_price
      then
        let mid_price := (best_ask_price + best_bid_price) / dec 2 1 in
        let spread := best_ask_price - best_bid_price in
        let! ratio := py_div spread mid_price in
        Ok (Some (ratio * dec 10000 1))
      else Ok None
  | _, _ => Ok None
  end.

(** The loop of [calculate_market_impact] over the price levels, on the
    state [(remaining_qty, total_cost, executed_qty)]. *)
Fixpoint walk (levels : list level) (remaining_qty total_cost executed_qty : Qc)
    : Qc * Qc * Qc :=
  match levels with
  | [] => (remaining_qty, total_cost, executed_qty)
  | (price, level_qty) :: rest =>
      if decide (remaining_qty ≤ 0)
      then (remaining_qty, total_cost, executed_qty)          (* break *)
      else
        let executable_qty := py_min remaining_qty level_qty in
        walk rest (remaining_qty - executable_qty)
          (total_cost + executable_qty * price)
          (executed_qty + executable_qty)
  end.

(** The side of the book a market order matches with. *)
Definition matched_levels (ob : t) (side : string) : list level :=
  if decide (lower side = "buy") then asks ob else bids ob.

(** [OrderBook.calculate_market_impact]:
    [(average_price, price_impact_bps, executed_quantity)]. *)
Definition calculate_market_impact (ob : t) (side : string) (quantity : Qc)
    : result (option Qc * Qc * Qc) :=
  let '(_, total_cost, executed_qty) := walk (matched_levels ob side) quantity 0 0 in
  if decide (0 < executed_qty) then
    let! avg_price := py_div total_cost executed_qty in
    let! impact_bps :=
      match get_mid_price ob with
      | Some mid_price =>
          if truthy mid_price then
            if decide (lower side = "buy") then
              let! r := py_div avg_price mid_price in
              Ok ((r - 1) * dec 10000 1)
            else
              let! r := py_div mid_price avg_price in
              Ok ((r - 1) * dec 10000 1)
          else Ok 0
      | None => Ok 0
      end in
    Ok (Some avg_price, impact_bps, executed_qty)
  else Ok (None, 0, 0).

(** *** Invariants of the book *)

(** Every quantity stored in a side's dictionary is positive. *)
Definition dict_ok (d : gmap Qc Qc) : Prop := map_Forall (λ _ q, 0 < q) d.

(** What [update] maintains from one call to the next: the depth cap is
    never changed, both dictionaries hold positive quantities only, and
    the arrays are the sorted, capped views of the dictionaries. *)
Record consistent (d : Z) (ob : t) : Prop := {
  consistent_depth : max_depth ob = d;
  consistent_ask_dict : dict_ok (ask_dict ob);
  consistent_bid_dict : dict_ok (bid_dict ob);
  consistent_asks : asks ob = limit_depth d (sorted_items (ask_dict ob));
  consistent_bids : bids ob = limit_depth d (sorted_items_reverse (bid_dict ob))
}.


(** A small book reached by two calls: the second call removes the ask
    level at 101 and the cap of two levels hides the deepest bid. *)
Definition example_calls : list call :=
  [ ([(dec 103 1, dec 1 1); (dec 101 1, dec 2 1); (dec 102 1, dec 5 2)],
     [(dec 99 1, dec 3 1); (dec 100 1, dec 1 1); (dec 98 1, dec 4 1)], 1%Z);
    ([(dec 101 1, dec 0 1)], [], 2%Z) ].

Definition example_book : t := run (init "BTC-USDT-SWAP" 2) example_calls.

(** A book reached by one call whose best bid sits at price 0. *)
Definition zero_bid_book : t :=
  run (init "BTC-USDT-SWAP" 100) [([(dec 1 1, dec 5 1)], [(dec 0 1, dec 3 1)], 1%Z)].



Lemma apply_delta_ok d pq : dict_ok d → dict_ok (apply_delta d pq).
Proof.
  intros Hd. unfold apply_delta. case_decide.
  - by apply map_Forall_insert_2.
  - by apply map_Forall_delete.
Qed.

Lemma apply_deltas_ok l : ∀ d, dict_ok d → dict_ok (apply_deltas d l).
Proof.
  induction l as [|pq l IH]; intros d Hd; simpl; [done|].
  apply IH, apply_delta_ok, Hd.
Qed.

Global Instance tuple_le_trans : Transitive tuple_le.
Proof.
  intros [p1 q1] [p2 q2] [p3 q3]; unfold tuple_le; simpl.
  intros [H1|[-> H1]] [H2|[-> H2]]; eauto using Qclt_trans, Qcle_trans.
Qed.

Global Instance tuple_le_total : Total tuple_le.
Proof.
  intros [p1 q1] [p2 q2]; unfold tuple_le; simpl.
  destruct (Qc_dec p1 p2) as [[?|?]| ->]; eauto.
  destruct (Qc_le_total q1 q2); eauto.
Qed.

(** A list of levels sorted by tuples and with pairwise distinct prices is
    strictly sorted by price. *)
Lemma sorted_strict (R : relation level) (S : relation Qc) (l : list level) :
  (∀ a b, R a b → a.1 ≠ b.1 → S a.1 b.1) →
  StronglySorted R l → NoDup (l.*1) → StronglySorted S (l.*1).
Proof.
  intros HRS. induction 1 as [|a l Hl IH Ha]; intros Hnd; simpl.
  - constructor.
  - apply NoDup_cons in Hnd as [Hnotin Hnd]. constructor; [by apply IH|].
    apply Forall_fmap, Forall_forall. intros b Hb. simpl.
    rewrite Forall_forall in Ha. apply HRS; [by apply Ha|].
    intros Heq. apply Hnotin. rewrite Heq. apply list_elem_of_fmap. eauto.
Qed.

Lemma sorted_items_perm d : sorted_items d ≡ₚ map_to_list d.
Proof. apply merge_sort_Permutation. Qed.

Lemma sorted_items_reverse_perm d : sorted_items_reverse d ≡ₚ map_to_list d.
Proof. apply merge_sort_Permutation. Qed.

Lemma sorted_items_increasing d : StronglySorted Qclt ((sorted_items d).*1).
Proof.
  apply (sorted_strict tuple_le).
  - intros a b [?|[? _]] ?; done.
  - apply StronglySorted_merge_sort; apply _.
  - rewrite sorted_items_perm. apply NoDup_fst_map_to_list.
Qed.

Lemma sorted_items_reverse_decreasing d :
  StronglySorted (flip Qclt) ((sorted_items_reverse d).*1).
Proof.
  apply (sorted_strict (flip tuple_le)).
  - intros a b [?|[? _]] ?; done.
  - apply StronglySorted_merge_sort.
    + intros x y z Hxy Hyz. unfold flip in *. by etrans.
    + intros x y. unfold flip. destruct (tuple_le_total x y); eauto.
  - rewrite sorted_items_reverse_perm. apply NoDup_fst_map_to_list.
Qed.

Lemma limit_depth_prefix k l : limit_depth k l `prefix_of` l.
Proof.
  unfold limit_depth, slice_to. repeat case_decide; try done;
    apply prefix_take.
Qed.

Lemma limit_depth_length k l :
  (0 ≤ k)%Z → (Z.of_nat (length (limit_depth k l)) ≤ k)%Z.
Proof.
  intros Hk. unfold limit_depth, slice_to. repeat case_decide; try lia.
  rewrite length_take. lia.
Qed.

Lemma _update_statistics_book ob :
  let ob' := (_update_statistics ob).2 in
  asks ob' = asks ob ∧ bids ob' = bids ob ∧ ask_dict ob' = ask_dict ob ∧
  bid_dict ob' = bid_dict ob ∧ max_depth ob' = max_depth ob.
Proof.
  unfold _update_statistics.
  repeat case_match; cbn [snd asks bids ask_dict bid_dict max_depth];
    repeat split; congruence.
Qed.

Lemma update_book ob new_asks new_bids ts :
  let ob' := (update ob new_asks new_bids ts).2 in
  max_depth ob' = max_depth ob ∧
  ask_dict ob' = apply_deltas (ask_dict ob) new_asks ∧
  bid_dict ob' = apply_deltas (bid_dict ob) new_bids ∧
  asks ob' = limit_depth (max_depth ob) (sorted_items (ask_dict ob')) ∧
  bids ob' = limit_depth (max_depth ob) (sorted_items_reverse (bid_dict ob')).
Proof.
  unfold update.
  match goal with |- context [_update_statistics ?b] =>
    destruct (_update_statistics_book b) as (-> & -> & -> & -> & ->) end.
  done.
Qed.

Lemma limit_depth_nil k : limit_depth k [] = [].
Proof.
  unfold limit_depth, slice_to. repeat case_decide; try done; apply take_nil.
Qed.

Lemma init_consistent sym d : consistent d (init sym d).
Proof.
  split.
  - reflexivity.
  - apply map_Forall_empty.
  - apply map_Forall_empty.
  - change (asks (init sym d)) with (@nil level).
    change (ask_dict (init sym d)) with (∅ : gmap Qc Qc).
    unfold sorted_items. rewrite map_to_list_empty.
    change (merge_sort tuple_le []) with (@nil level).
    symmetry. apply limit_depth_nil.
  - change (bids (init sym d)) with (@nil level).
    change (bid_dict (init sym d)) with (∅ : gmap Qc Qc).
    unfold sorted_items_reverse. rewrite map_to_list_empty.
    change (merge_sort (flip tuple_le) []) with (@nil level).
    symmetry. apply limit_depth_nil.
Qed.

Lemma update_consistent d ob new_asks new_bids ts :
  consistent d ob → consistent d (update ob new_asks new_bids ts).2.
Proof.
  intros [Hd Ha Hb _ _].
  destruct (update_book ob new_asks new_bids ts) as (Hd' & Ha' & Hb' & Has & Hbs).
  split.
  - congruence.
  - rewrite Ha'. by apply apply_deltas_ok.
  - rewrite Hb'. by apply apply_deltas_ok.
  - rewrite Has. by rewrite Hd.
  - rewrite Hbs. by rewrite Hd.
Qed.

Lemma run_consistent d calls : ∀ ob, consistent d ob → consistent d (run ob calls).
Proof.
  induction calls as [|c calls IH]; intros ob Hob; simpl; [done|].
  apply IH, update_consistent, Hob.
Qed.

Lemma prefix_strongly_sorted {A} (R : relation A) (l1 l2 : list A) :
  l1 `prefix_of` l2 → StronglySorted R l2 → StronglySorted R l1.
Proof. intros [k ->] H. by apply StronglySorted_app_1_l in H. Qed.

Lemma fmap_prefix {A B} (f : A → B) (l1 l2 : list A) :
  l1 `prefix_of` l2 → (f <$> l1) `prefix_of` (f <$> l2).
Proof. intros [k ->]. exists (f <$> k). apply fmap_app. Qed.

Lemma limited_levels_positive d k (l : list level) :
  dict_ok d → l ≡ₚ map_to_list d → Forall (λ x : level, 0 < x.2) (limit_depth k l).
Proof.
  intros Hd Hl. apply Forall_forall. intros [p q] Hin. simpl.
  pose proof (elem_of_prefix _ _ _ Hin (limit_depth_prefix k l)) as Hin'.
  rewrite Hl in Hin'. apply elem_of_map_to_list in Hin'. by apply Hd in Hin'.
Qed.

Lemma consistent_asks_positive d ob :
  consistent d ob → Forall (λ x : level, 0 < x.2) (asks ob).
Proof.
  intros [_ Ha _ -> _]. apply (limited_levels_positive (ask_dict ob)); [done|].
  apply sorted_items_perm.
Qed.

Lemma consistent_bids_positive d ob :
  consistent d ob → Forall (λ x : level, 0 < x.2) (bids ob).
Proof.
  intros [_ _ Hb _ ->]. apply (limited_levels_positive (bid_dict ob)); [done|].
  apply sorted_items_reverse_perm.
Qed.

(** C1. Starting from the empty book with a non-negative depth cap, after
    every sequence of [update(asks, bids, timestamp)] calls the ask prices
    are strictly increasing, the bid prices strictly decreasing, no level on
    either side has zero quantity, and each side has at most [max_depth]
    levels. *)
Theorem update_keeps_book_sorted_nonzero_capped
    (sym : string) (max_depth : Z) (calls : list call) :
  (0 ≤ max_depth)%Z →
  let ob := run (init sym max_depth) calls in
  StronglySorted Qclt ((asks ob).*1) ∧
  StronglySorted (flip Qclt) ((bids ob).*1) ∧
  Forall (λ l : level, l.2 ≠ 0) (asks ob) ∧
  Forall (λ l : level, l.2 ≠ 0) (bids ob) ∧
  (Z.of_nat (length (asks ob)) ≤ max_depth)%Z ∧
  (Z.of_nat (length (bids ob)) ≤ max_depth)%Z.
Proof.
  intros Hd ob.
  assert (Hc : consistent max_depth ob) by apply run_consistent, init_consistent.
  pose proof (consistent_asks_positive _ _ Hc) as Hap.
  pose proof (consistent_bids_positive _ _ Hc) as Hbp.
  destruct Hc as [_ _ _ Ha Hb].
  repeat split.
  - rewrite Ha. eapply prefix_strongly_sorted; [|apply sorted_items_increasing].
    apply fmap_prefix, limit_depth_prefix.
  - rewrite Hb. eapply prefix_strongly_sorted; [|apply sorted_items_reverse_decreasing].
    apply fmap_prefix, limit_depth_prefix.
  - eapply Forall_impl; [exact Hap|]. intros l Hl Heq. apply Qclt_not_eq in Hl. congruence.
  - eapply Forall_impl; [exact Hbp|]. intros l Hl Heq. apply Qclt_not_eq in Hl. congruence.
  - rewrite Ha. by apply limit_depth_length.
  - rewrite Hb. by apply limit_depth_length.
Qed.

Example example_book_asks :
  asks example_book = [(dec 102 1, dec 5 2); (dec 103 1, dec 1 1)].
Proof. compute_done. Qed.

Example example_book_bids :
  bids example_book = [(dec 100 1, dec 1 1); (dec 99 1, dec 3 1)].
Proof. compute_done. Qed.

Lemma update_keeps_book_sorted_nonzero_capped_witness :
  (0 ≤ 2)%Z ∧
  StronglySorted Qclt ((asks example_book).*1) ∧
  StronglySorted (flip Qclt) ((bids example_book).*1) ∧
  Forall (λ l : level, l.2 ≠ 0) (asks example_book) ∧
  Forall (λ l : level, l.2 ≠ 0) (bids example_book) ∧
  (Z.of_nat (length (asks example_book)) ≤ 2)%Z ∧
  (Z.of_nat (length (bids example_book)) ≤ 2)%Z.
Proof.
  split; [lia|].
  apply (update_keeps_book_sorted_nonzero_capped "BTC-USDT-SWAP" 2 example_calls).
  lia.
Defined.

(** *** Availability of the mid price and the spread *)

Lemma truthy_zero : truthy 0 = false.
Proof. reflexivity. Qed.

Lemma truthy_true x : truthy x = true ↔ x ≠ 0.
Proof. unfold truthy. apply bool_decide_eq_true. Qed.

(** The mid price is available exactly when both sides are non-empty and
    both best prices are non-zero. *)
Lemma get_mid_price_Some ob m :
  get_mid_price ob = Some m ↔
  ∃ pa qa la pb qb lb,
    asks ob = (pa, qa) :: la ∧ bids ob = (pb, qb) :: lb ∧
    pa ≠ 0 ∧ pb ≠ 0 ∧ m = (pa + pb) / dec 2 1.
Proof.
  unfold get_mid_price, get_best_ask, get_best_bid. split.
  - destruct (asks ob) as [|[pa qa] la]; [done|].
    destruct (bids ob) as [|[pb qb] lb]; [done|]. cbn [fst].
    destruct (truthy pa) eqn:Ha; [|done]. destruct (truthy pb) eqn:Hb; [|done].
    cbn [andb]. intros [= <-]. apply truthy_true in Ha, Hb.
    by exists pa, qa, la, pb, qb, lb.
  - intros (pa & qa & la & pb & qb & lb & -> & -> & Ha & Hb & ->). cbn [fst].
    apply truthy_true in Ha, Hb. by rewrite Ha, Hb.
Qed.

(** With a non-zero mid price the spread is available. *)
Lemma get_spread_Some ob mid :
  get_mid_price ob = Some mid → mid ≠ 0 → ∃ s, get_spread ob = Ok (Some s).
Proof.
  intros Hm Hne. apply get_mid_price_Some in Hm
    as (pa & qa & la & pb & qb & lb & Ha & Hb & Hpa & Hpb & ->).
  unfold get_spread, get_best_ask, get_best_bid.
  rewrite Ha, Hb. cbn [fst].
  apply truthy_true in Hpa, Hpb. rewrite Hpa, Hpb. cbn [andb].
  unfold py_div. rewrite decide_False by done. cbn [bind]. eauto.
Qed.

(** C9. With both sides non-empty, a best ask price or a best bid price
    equal to 0 makes [get_mid_price] and [get_spread] return [None]:
    availability is decided by the truthiness of the best prices. *)
Theorem zero_best_price_gives_no_mid_price_and_no_spread
    (ob : t) (pa qa pb qb : Qc) (la lb : list level) :
  asks ob = (pa, qa) :: la →
  bids ob = (pb, qb) :: lb →
  pa = 0 ∨ pb = 0 →
  get_mid_price ob = None ∧ get_spread ob = Ok None.
Proof.
  intros Ha Hb Hz. unfold get_mid_price, get_spread, get_best_ask, get_best_bid.
  rewrite Ha, Hb. cbn [fst].
  destruct Hz as [-> | ->]; rewrite truthy_zero, ?andb_false_r; done.
Qed.

Lemma zero_best_price_gives_no_mid_price_and_no_spread_witness :
  asks zero_bid_book = [(dec 1 1, dec 5 1)] ∧
  bids zero_bid_book = [(dec 0 1, dec 3 1)] ∧
  get_mid_price zero_bid_book = None ∧ get_spread zero_bid_book = Ok None.
Proof.
  assert (Ha : asks zero_bid_book = [(dec 1 1, dec 5 1)]) by compute_done.
  assert (Hb : bids zero_bid_book = [(dec 0 1, dec 3 1)]) by compute_done.
  split; [exact Ha|]. split; [exact Hb|].
  apply (zero_best_price_gives_no_mid_price_and_no_spread
           zero_bid_book (dec 1 1) (dec 5 1) (dec 0 1) (dec 3 1) [] [] Ha Hb).
  right. compute_done.
Defined.

(** *** The book walk *)




Lemma py_div_Ok a b : b ≠ 0 → py_div a b = Ok (a / b).
Proof. intros Hb. unfold py_div. by case_decide. Qed.








Example example_book_buy :
  calculate_market_impact example_book "BUY" (dec 3 1)
  = Ok (Some (dec 613 6), ((dec 613 6 / dec 101 1) - 1) * dec 10000 1, dec 3 1).
Proof. compute_done. Qed.



End OrderBook.

(** ** The ask depth the estimators compute

    [sum(float(size) for _, size in orderbook.asks
         if float(_) < mid_price * factor)]
    where [mid_price] is what [get_mid_price()] returned.  The comparison is
    evaluated once per ask level, so a missing mid price raises
    [TypeError] unless there is no ask level at all. *)

Module Liquidity.
Local Open Scope Qc_scope.
Import PyNum.

Fixpoint asks_below (mid_price : option Qc) (factor : Qc)
    (levels : list OrderBook.level) : result Qc :=
  match levels with
  | [] => Ok 0
  | (price, size) :: rest =>
      match mid_price with
      | None => Raise TypeError
      | Some m =>
          let! s := asks_below mid_price factor rest in
          Ok (if decide (price < m * factor) then size + s else s)
      end
  end.

Lemma asks_below_Some m factor levels :
  ∃ d, asks_below (Some m) factor levels = Ok d.
Proof.
  induction levels as [|[p q] l [d IH]]; [by exists 0|].
  cbn [asks_below]. rewrite IH. cbn [bind]. eauto.
Qed.

End Liquidity.

(** ** [models/slippage.py]: class [SlippageModel] *)

Module SlippageModel.
Local Open Scope Qc_scope.
Import PyNum.

(** The loop of [_calculate_price_impact] on the state
    [(remaining_qty, executed_value)]. *)
Fixpoint walk (book_side : list OrderBook.level) (remaining_qty executed_value : Qc)
    : Qc * Qc :=
  match book_side with
  | [] => (remaining_qty, executed_value)
  | (price, size) :: rest =>
      if decide (remaining_qty ≤ size)
      then (0, executed_value + remaining_qty * price)        (* break *)
      else walk rest (remaining_qty - size) (executed_value + size * price)
  end.

(** [SlippageModel._calculate_price_impact] *)
Definition _calculate_price_impact (orderbook : OrderBook.t) (quantity : Qc)
    (side : string) : result Qc :=
  let book_side :=
    if decide (side = "buy") then OrderBook.asks orderbook
    else OrderBook.bids orderbook in
  let direction := if decide (side = "buy") then 1 else - 1 in
  let '(remaining_qty, executed_value) := walk book_side quantity 0 in
  let! executed_value :=
    if decide (0 < remaining_qty) then
      match last book_side with
      | Some (last_price, _) => Ok (executed_value + remaining_qty * last_price)
      | None =>
          (* No liquidity in the orderbook, use mid price as fallback *)
          match OrderBook.get_mid_price orderbook with
          | Some mid_price => Ok (executed_value + remaining_qty * mid_price)
          | None => Raise TypeError
          end
      end
    else Ok executed_value in
  let! avg_price := py_div executed_value quantity in
  match OrderBook.get_mid_price orderbook with
  | Some mid_price => Ok (direction * (avg_price - mid_price))
  | None => Raise TypeError
  end.

Example price_impact_example :
  _calculate_price_impact OrderBook.example_book (dec 3 1) "buy"
  = Ok (dec 613 6 - dec 101 1).
Proof. compute_done. Qed.

(** C4 (the code departs from the specification). On a book with both
    sides empty the baseline does not price the order at the mid price: the
    mid price is [None] there, and multiplying the remaining quantity by it
    raises [TypeError]. *)
Theorem slippage_baseline_on_empty_book_raises
    (orderbook : OrderBook.t) (quantity : Qc) (side : string) :
  OrderBook.asks orderbook = [] →
  OrderBook.bids orderbook = [] →
  0 < quantity →
  _calculate_price_impact orderbook quantity side = Raise TypeError.
Proof.
  intros Ha Hb HQ. unfold _calculate_price_impact, OrderBook.get_mid_price,
    OrderBook.get_best_ask, OrderBook.get_best_bid.
  rewrite Ha, Hb. cbn [fst]. destruct (decide (side = "buy")); cbn [walk last];
    by rewrite decide_True.
Qed.

Lemma slippage_baseline_on_empty_book_raises_witness :
  0 < dec 1 1 ∧
  _calculate_price_impact (OrderBook.init "BTC-USDT-SWAP" 100) (dec 1 1) "buy"
  = Raise TypeError.
Proof.
  assert (HQ : 0 < dec 1 1) by compute_done.
  split; [exact HQ|].
  by apply slippage_baseline_on_empty_book_raises.
Defined.

End SlippageModel.

(** ** [models/maker_taker.py]: class [MakerTakerModel] *)

Module MakerTakerModel.
Local Open Scope Qc_scope.
Import PyNum.

(** A feature vector; its first entry is [get_spread()], which may be
    [None]. *)
Definition features : Type := list (option Qc).

(** The dictionary [predict] returns. *)
Record prediction : Type := {
  maker_proportion : Qc;
  taker_proportion : Qc
}.

Section model.

(** scikit-learn's [LogisticRegression] is external: a fitted-model state
    with [fit] and [predict_proba(features)[0][1]], each of which may
    raise. *)
Context {classifier : Type}.
Variable fit : classifier → list (features * Z) → result classifier.
Variable predict_proba : classifier → features → result Qc.

Record t : Type := mk {
  model : classifier;
  history : list (features * Z);
  trained : bool
}.

(** [MakerTakerModel.__init__] around a fresh classifier. *)
Definition init (fresh : classifier) : t :=
  {| model := fresh; history := []; trained := false |}.

(** [quantity / depth_5bps if depth_5bps > 0 else 1.0] *)
Definition relative_size (quantity depth_5bps : Qc) : Qc :=
  if decide (0 < depth_5bps) then quantity / depth_5bps else 1.

(** [MakerTakerModel._extract_features] *)
Definition _extract_features (orderbook : OrderBook.t) (quantity volatility : Qc)
    : result features :=
  let! spread := OrderBook.get_spread orderbook in
  let! depth_5bps :=
    Liquidity.asks_below (OrderBook.get_mid_price orderbook) (dec 10005 10000)
      (OrderBook.asks orderbook) in
  let! depth_10bps :=
    Liquidity.asks_below (OrderBook.get_mid_price orderbook) (dec 1001 1000)
      (OrderBook.asks orderbook) in
  let norm_volatility := py_min (volatility / dec 10 1) 1 in
  Ok [spread; Some depth_5bps; Some depth_10bps;
      Some (relative_size quantity depth_5bps); Some norm_volatility].

(** [get_spread() / get_mid_price()]: dividing with [None] on either side
    raises [TypeError]. *)
Definition spread_over_mid (orderbook : OrderBook.t) : result Qc :=
  let! spread := OrderBook.get_spread orderbook in
  match spread, OrderBook.get_mid_price orderbook with
  | Some s, Some m => py_div s m
  | _, _ => Raise TypeError
  end.

(** [MakerTakerModel._simulate_execution] *)
Definition _simulate_execution (orderbook : OrderBook.t) (quantity volatility : Qc)
    : result Qc :=
  let base_maker := py_max 0 (py_min (dec 9 10) (1 - volatility / dec 15 1)) in
  let! depth_5bps :=
    Liquidity.asks_below (OrderBook.get_mid_price orderbook) (dec 10005 10000)
      (OrderBook.asks orderbook) in
  let size_adjustment :=
    py_max 0 (py_min (dec 1 2) (dec 1 2 * (1 - relative_size quantity depth_5bps))) in
  let! spread_ratio := spread_over_mid orderbook in
  let spread_adjustment := py_min (dec 2 10) (spread_ratio * dec 100 1) in
  Ok (py_min (dec 95 100)
        (py_max (dec 5 100) (base_maker + size_adjustment + spread_adjustment))).

(** The ten synthetic labels [int(np.random.random() < maker_proportion)];
    [random i] is the [i]-th draw of this call. *)
Definition num_samples : nat := 10.

Definition synthetic_labels (random : nat → Qc) (f : features) (maker : Qc)
    : list (features * Z) :=
  (λ i, (f, if decide (random i < maker) then 1%Z else 0%Z)) <$> seq 0 num_samples.

(** [MakerTakerModel._update_model]: a failed fit is logged and leaves the
    model as it was. *)
Definition _update_model (m : t) (random : nat → Qc) (f : features) (maker : Qc) : t :=
  let h := history m ++ synthetic_labels random f maker in
  let h := if decide (1000 < length h)%nat then last_n 1000 h else h in
  if decide (50 ≤ length h)%nat then
    match fit (model m) h with
    | Ok fitted => {| model := fitted; history := h; trained := true |}
    | Raise _ => {| model := model m; history := h; trained := trained m |}
    end
  else {| model := model m; history := h; trained := trained m |}.

(** The proportion [predict] computes before clamping. *)
Definition blend (m : t) (f : features) (simulated_maker : Qc) : Qc :=
  if negb (trained m) || bool_decide (length (history m) < 50)%nat
  then simulated_maker
  else
    match predict_proba (model m) f with
    | Ok maker_proba => dec 7 10 * maker_proba + dec 3 10 * simulated_maker
    | Raise _ => simulated_maker
    end.

(** [MakerTakerModel.predict] *)
Definition predict (m : t) (orderbook : OrderBook.t) (quantity volatility : Qc)
    (random : nat → Qc) : result (prediction * t) :=
  let! f := _extract_features orderbook quantity volatility in
  let! simulated_maker := _simulate_execution orderbook quantity volatility in
  let maker := blend m f simulated_maker in
  let m' := _update_model m random f simulated_maker in
  let maker := py_max 0 (py_min 1 maker) in
  Ok ({| maker_proportion := maker; taker_proportion := 1 - maker |}, m').

(** A stand-in classifier for concrete runs: fitting always succeeds and the
    predicted probability is one half. *)
Definition fit_stub (c : unit) (h : list (features * Z)) : result unit := Ok ().
Definition predict_proba_stub (c : unit) (f : features) : result Qc := Ok (dec 1 2).
Definition random_stub (i : nat) : Qc := dec 1 2.

Lemma _extract_features_Ok orderbook quantity volatility mid :
  OrderBook.get_mid_price orderbook = Some mid → mid ≠ 0 →
  ∃ f, _extract_features orderbook quantity volatility = Ok f.
Proof.
  intros Hm Hne. unfold _extract_features.
  destruct (OrderBook.get_spread_Some _ _ Hm Hne) as [s ->]. rewrite Hm. cbn [bind].
  destruct (Liquidity.asks_below_Some mid (dec 10005 10000) (OrderBook.asks orderbook))
    as [d5 ->].
  destruct (Liquidity.asks_below_Some mid (dec 1001 1000) (OrderBook.asks orderbook))
    as [d10 ->].
  cbn [bind]. eauto.
Qed.

Lemma _simulate_execution_Ok orderbook quantity volatility mid :
  OrderBook.get_mid_price orderbook = Some mid → mid ≠ 0 →
  ∃ p, _simulate_execution orderbook quantity volatility = Ok p.
Proof.
  intros Hm Hne. unfold _simulate_execution, spread_over_mid.
  destruct (OrderBook.get_spread_Some _ _ Hm Hne) as [s ->]. rewrite Hm.
  destruct (Liquidity.asks_below_Some mid (dec 10005 10000) (OrderBook.asks orderbook))
    as [d5 ->].
  cbn [bind]. rewrite OrderBook.py_div_Ok by done. cbn [bind]. eauto.
Qed.

Lemma clamp_unit x :
  0 ≤ py_max 0 (py_min 1 x) ∧ py_max 0 (py_min 1 x) ≤ 1.
Proof. split; case_minmax; qc_lra. Qed.

(** C2 (as amended). On every book whose mid price is available and
    non-zero, for every quantity, volatility, model state (trained or not)
    and classifier behaviour (including a classifier that raises),
    [predict] returns proportions that lie in [0, 1] and sum to 1. *)
Theorem predict_proportions_sum_to_one
    (m : t) (orderbook : OrderBook.t) (quantity volatility : Qc)
    (random : nat → Qc) (mid : Qc) :
  OrderBook.get_mid_price orderbook = Some mid →
  mid ≠ 0 →
  ∃ p m',
    predict m orderbook quantity volatility random = Ok (p, m') ∧
    0 ≤ maker_proportion p ∧ maker_proportion p ≤ 1 ∧
    0 ≤ taker_proportion p ∧ taker_proportion p ≤ 1 ∧
    maker_proportion p + taker_proportion p = 1.
Proof.
  intros Hm Hne. unfold predict.
  destruct (_extract_features_Ok orderbook quantity volatility mid Hm Hne) as [f ->].
  destruct (_simulate_execution_Ok orderbook quantity volatility mid Hm Hne) as [s ->].
  cbn [bind]. eexists _, _. split; [reflexivity|]. cbn [maker_proportion taker_proportion].
  destruct (clamp_unit (blend m f s)) as [H0 H1].
  set (x := py_max 0 (py_min 1 (blend m f s))) in *.
  repeat split; try done; qc_lra.
Qed.

End model.

Example predict_example :
  (λ r, (maker_proportion r.1, taker_proportion r.1, length (history r.2)))
    <$> match predict fit_stub predict_proba_stub (init ()) OrderBook.example_book
                (dec 3 1) (dec 3 1) random_stub with
        | Ok r => Some r
        | Raise _ => None
        end
  = Some (dec 95 100, dec 5 100, 10%nat).
Proof. compute_done. Qed.

Lemma predict_proportions_sum_to_one_witness :
  OrderBook.get_mid_price OrderBook.example_book = Some (dec 101 1) ∧
  dec 101 1 ≠ 0 ∧
  ∃ p m',
    predict fit_stub predict_proba_stub (init ()) OrderBook.example_book
      (dec 3 1) (dec 3 1) random_stub = Ok (p, m') ∧
    0 ≤ maker_proportion p ∧ maker_proportion p ≤ 1 ∧
    0 ≤ taker_proportion p ∧ taker_proportion p ≤ 1 ∧
    maker_proportion p + taker_proportion p = 1.
Proof.
  assert (Hm : OrderBook.get_mid_price OrderBook.example_book = Some (dec 101 1))
    by compute_done.
  assert (Hne : dec 101 1 ≠ 0) by compute_done.
  split; [exact Hm|]. split; [exact Hne|].
  exact (predict_proportions_sum_to_one fit_stub predict_proba_stub (init ())
           OrderBook.example_book (dec 3 1) (dec 3 1) random_stub (dec 101 1) Hm Hne).
Defined.

(** C2 as stated fails: on the empty book [predict] returns nothing, it
    raises [TypeError] (the spread and the mid price are both [None] when
    [_simulate_execution] divides them). *)
Lemma predict_on_empty_book_raises :
  predict fit_stub predict_proba_stub (init ()) (OrderBook.init "BTC-USDT-SWAP" 100)
    (dec 1 1) (dec 1 1) random_stub
  = Raise TypeError.
Proof. reflexivity. Qed.

End MakerTakerModel.

(** ** [models/market_impact.py]: class [MarketImpactModel] *)

Module MarketImpactModel.
Local Open Scope Qc_scope.
Import PyNum.

(** The model parameters.  The exponents are the constant [1.0] of
    [__init__] and are never reassigned; they are kept as natural
    exponents. *)
Record t : Type := mk {
  temp_impact_alpha : nat;
  perm_impact_beta : nat;
  temp_impact_eta : Qc;
  perm_impact_gamma : Qc;
  risk_aversion : Qc
}.

(** [MarketImpactModel.__init__] *)
Definition init : t :=
  {| temp_impact_alpha := 1; perm_impact_beta := 1;
     temp_impact_eta := dec 5 100; perm_impact_gamma := dec 5 100;
     risk_aversion := dec 1 100 |}.

(** [MarketImpactModel._temporary_impact], [_permanent_impact] *)
Definition _temporary_impact (m : t) (volume : Qc) : Qc :=
  temp_impact_eta m * volume ^ temp_impact_alpha m.

Definition _permanent_impact (m : t) (volume : Qc) : Qc :=
  perm_impact_gamma m * volume ^ perm_impact_beta m.

(** Entries of the float arrays of the DP: a number or [float('inf')]. *)
Inductive cost : Type :=
  | Finite (c : Qc)
  | Infinity.

Definition cost_add (a b : cost) : cost :=
  match a, b with
  | Finite x, Finite y => Finite (x + y)
  | _, _ => Infinity
  end.

(** [a < b] on such floats. *)
Definition cost_lt (a b : cost) : Prop :=
  match a, b with
  | Finite x, Finite y => x < y
  | Finite _, Infinity => True
  | Infinity, _ => False
  end.

Global Instance cost_lt_dec : RelDecision cost_lt.
Proof. intros [x|] [y|]; simpl; apply _. Defined.

Global Instance cost_eq_dec : EqDecision cost.
Proof. solve_decision. Defined.

(** [row[i]] for an index within the row (all indices the DP uses are). *)
Definition cost_at (row : list cost) (i : Z) : cost :=
  default Infinity (row !! Z.to_nat i).
Definition move_at (row : list Z) (i : Z) : Z :=
  default 0%Z (row !! Z.to_nat i).

Definition time_step_size : Qc := dec 1 2.

(** The body of the innermost loop: the total cost of executing [n] of
    [shares] in a slice whose successor has the values [next_row]. *)
Definition total_cost (m : t) (volatility_decimal : Qc) (next_row : list cost)
    (shares n : Z) : cost :=
  let temp_cost := ofZ n * _temporary_impact m (ofZ n / time_step_size) in
  let perm_cost := ofZ (shares - n) * _permanent_impact m (ofZ n / time_step_size) in
  let risk_cost :=
    dec 1 2 * (risk_aversion m * volatility_decimal) ^ 2
    * ofZ ((shares - n) ^ 2) * time_step_size in
  cost_add (Finite (temp_cost + perm_cost + risk_cost))
    (cost_at next_row (shares - n)).

(** The scan [for n in range(shares + 1)] with the strict comparison
    [if total_cost < best_value], on the state
    [(best_value, best_share_amount)]. *)
Fixpoint scan (cost_of : Z → cost) (ns : list Z)
    (best_value : cost) (best_share_amount : Z) : cost * Z :=
  match ns with
  | [] => (best_value, best_share_amount)
  | n :: rest =>
      if decide (cost_lt (cost_of n) best_value)
      then scan cost_of rest (cost_of n) n
      else scan cost_of rest best_value best_share_amount
  end.

(** One slice of the backward induction: for every inventory
    [shares in range(int(quantity) + 1)] the best value and the best move. *)
Definition backward_row (m : t) (volatility_decimal : Qc) (N : Z)
    (next_row : list cost) : list cost * list Z :=
  let r := (λ shares,
              scan (total_cost m volatility_decimal next_row shares)
                (seqZ 0 (shares + 1)) Infinity 0%Z) <$> seqZ 0 (N + 1) in
  (r.*1, r.*2).

(** The terminal condition: liquidate all remaining inventory. *)
Definition terminal_row (m : t) (N : Z) : list cost * list Z :=
  ((λ shares, Finite (ofZ shares * _temporary_impact m (ofZ shares / time_step_size)))
     <$> seqZ 0 (N + 1),
   seqZ 0 (N + 1)).

(** The rows [t = time_steps - 1 - k, ..., time_steps - 1] of
    [value_function] and [best_moves]. *)
Fixpoint backward_induction (m : t) (volatility_decimal : Qc) (N : Z) (k : nat)
    : list (list cost) * list (list Z) :=
  match k with
  | O => ([(terminal_row m N).1], [(terminal_row m N).2])
  | S k' =>
      let '(vs, bs) := backward_induction m volatility_decimal N k' in
      let '(v, b) := backward_row m volatility_decimal N (hd [] vs) in
      (v :: vs, b :: bs)
  end.

(** The forward simulation over the rows [t = 0, ..., time_steps - 2] of
    [best_moves]: the moves and the inventories after each move. *)
Fixpoint forward (rows : list (list Z)) (curr_inventory : Z) : list Z * list Z :=
  match rows with
  | [] => ([], [])
  | row :: rest =>
      let move := move_at row curr_inventory in
      let '(moves, path) := forward rest (curr_inventory - move) in
      (move :: moves, (curr_inventory - move)%Z :: path)
  end.

Record trajectory : Type := {
  value_function : list (list cost);
  best_moves : list (list Z);
  inventory_path : list Z;
  optimal_trajectory : list Z
}.

(** [MarketImpactModel._calculate_optimal_trajectory].  numpy refuses a
    negative dimension ([ValueError]) and an index into an empty axis
    ([IndexError]: [inventory_path[0]] when there is no time step,
    [best_moves[t, -1]] in the forward simulation when [int(quantity)] is
    [-1]). *)
Definition _calculate_optimal_trajectory (m : t) (quantity volatility : Qc)
    (time_steps : nat) : result trajectory :=
  let volatility_decimal := volatility / dec 100 1 in
  let N := py_int quantity in
  if decide (N + 1 < 0)%Z then Raise ValueError
  else if decide (time_steps = 0%nat) then Raise IndexError
  else if decide (N + 1 = 0 ∧ 2 ≤ Z.of_nat time_steps)%Z then Raise IndexError
  else
    let '(vs, bs) := backward_induction m volatility_decimal N (time_steps - 1) in
    let '(moves, path) := forward (take (time_steps - 1) bs) N in
    Ok {| value_function := vs; best_moves := bs;
          inventory_path := N :: path; optimal_trajectory := moves |}.

(** [quantity / depth if depth > 0 else 1.0] *)
Definition relative_size (quantity depth : Qc) : Qc :=
  if decide (0 < depth) then quantity / depth else 1.

(** [max(0.01, min(0.1, 0.05 * (1 + k * x)))] *)
Definition coefficient (k x : Qc) : Qc :=
  py_max (dec 1 100) (py_min (dec 1 10) (dec 5 100 * (1 + k * x))).

(** [MarketImpactModel._adjust_params_from_orderbook]: the parameters are
    assigned one after the other, so [temp_impact_eta] is already updated
    when the spread ratio raises. *)
Definition _adjust_params_from_orderbook (m : t) (orderbook : OrderBook.t)
    (quantity : Qc) : result unit * t :=
  let mid_price := OrderBook.get_mid_price orderbook in
  match Liquidity.asks_below mid_price (dec 1005 1000) (OrderBook.asks orderbook) with
  | Raise e => (Raise e, m)
  | Ok depth =>
      let m1 :=
        {| temp_impact_alpha := temp_impact_alpha m;
           perm_impact_beta := perm_impact_beta m;
           temp_impact_eta := coefficient (dec 2 1) (relative_size quantity depth);
           perm_impact_gamma := perm_impact_gamma m;
           risk_aversion := risk_aversion m |} in
      match
        (let! spread := OrderBook.get_spread orderbook in
         match spread, mid_price with
         | Some s, Some mid => py_div s mid
         | _, _ => Raise TypeError
         end)
      with
      | Raise e => (Raise e, m1)
      | Ok spread_ratio =>
          (Ok (),
           {| temp_impact_alpha := temp_impact_alpha m;
              perm_impact_beta := perm_impact_beta m;
              temp_impact_eta := temp_impact_eta m1;
              perm_impact_gamma := coefficient (dec 10 1) spread_ratio;
              risk_aversion := risk_aversion m |})
      end
  end.

(** The two accumulation loops of [calculate_impact] over the trajectory. *)
Fixpoint temporary_component (m : t) (traj : list Z) : Qc :=
  match traj with
  | [] => 0
  | trade_size :: rest =>
      (if decide (0 < trade_size)%Z
       then ofZ trade_size * _temporary_impact m (ofZ trade_size)
       else 0)
      + temporary_component m rest
  end.

Definition sumZ (l : list Z) : Z := foldr Z.add 0%Z l.

Fixpoint permanent_component (m : t) (traj : list Z) : Qc :=
  match traj with
  | [] => 0
  | trade_size :: rest =>
      ofZ (sumZ traj) * _permanent_impact m (ofZ trade_size)
      + permanent_component m rest
  end.

Definition total_impact (m : t) (traj : list Z) : Qc :=
  temporary_component m traj + permanent_component m traj.

(** [min(1000, max(10, quantity / 10))] *)
Definition normalized_quantity (quantity : Qc) : Qc :=
  py_min (dec 1000 1) (py_max (dec 10 1) (quantity / dec 10 1)).

Section impact.

(** [np.sqrt] is external. *)
Variable np_sqrt : Qc → Qc.

(** The [except] branch of [calculate_impact]. *)
Definition fallback_impact (orderbook : OrderBook.t) (quantity : Qc) : result Qc :=
  let mid_price := OrderBook.get_mid_price orderbook in
  let! depth :=
    Liquidity.asks_below mid_price (dec 1005 1000) (OrderBook.asks orderbook) in
  Ok (py_min (dec 1 10) (dec 2 100 * np_sqrt (relative_size quantity depth))).

(** The [try] branch of [calculate_impact], with the adjusted parameters. *)
Definition dp_impact (m : t) (quantity volatility : Qc) : result Qc :=
  let! r := _calculate_optimal_trajectory m (normalized_quantity quantity) volatility 10 in
  let! per_unit :=
    py_div (total_impact m (optimal_trajectory r)) (normalized_quantity quantity) in
  let impact_percentage := per_unit * (quantity / dec 10000 1) in
  Ok (py_max 0 (py_min (dec 1 10) impact_percentage)).

(** [MarketImpactModel.calculate_impact] *)
Definition calculate_impact (m : t) (orderbook : OrderBook.t)
    (quantity volatility : Qc) : result Qc * t :=
  match _adjust_params_from_orderbook m orderbook quantity with
  | (Raise e, m') => (Raise e, m')
  | (Ok _, m') =>
      match dp_impact m' quantity volatility with
      | Ok impact => (Ok impact, m')
      | Raise _ => (fallback_impact orderbook quantity, m')
      end
  end.

End impact.

(** A book with one ask level at 101 and one bid level at 100. *)
Definition wide_book : OrderBook.t :=
  OrderBook.run (OrderBook.init "BTC-USDT-SWAP" 100)
    [([(dec 101 1, dec 1000 1)], [(dec 100 1, dec 1000 1)], 1%Z)].

(** A rational stand-in for [np.sqrt] in concrete runs. *)
Definition sqrt_stub (x : Qc) : Qc :=
  Q2Qc (Z.sqrt (Qnum (x * dec 1000000 1) / Zpos (Qden (x * dec 1000000 1))) # 1000).

(** The same asks and the same best bid as [wide_book], other bid
    quantities and a deeper bid level. *)
Definition wide_book_other_bids : OrderBook.t :=
  OrderBook.run (OrderBook.init "BTC-USDT-SWAP" 100)
    [([(dec 101 1, dec 1000 1)], [(dec 100 1, dec 5 1); (dec 99 1, dec 7 1)], 1%Z)].







Example trajectory_example :
  optimal_trajectory <$>
    match _calculate_optimal_trajectory init (dec 10 1) (dec 1 1) 10 with
    | Ok r => Some r
    | Raise _ => None
    end
  = Some [1; 1; 1; 1; 1; 1; 1; 1; 1]%Z.
Proof. compute_done. Qed.

Example calculate_impact_example :
  (calculate_impact sqrt_stub init wide_book (dec 5 4) (dec 50 1)).1
  = Ok (dec 12403 160000000).
Proof. compute_done. Qed.

Example calculate_impact_example2 :
  (calculate_impact sqrt_stub init wide_book (dec 13 10) (dec 50 1)).1
  = Ok (dec 6436521 100000000000).
Proof. compute_done. Qed.

(** *** The scan keeps the first minimum *)





(** *** The tables of the backward induction *)





(** *** Range of the result *)


Lemma clamp_range x :
  0 ≤ py_max 0 (py_min (dec 1 10) x) ∧ py_max 0 (py_min (dec 1 10) x) ≤ dec 1 10.
Proof. split; case_minmax; qc_lra. Qed.

Lemma dp_impact_range m quantity volatility v :
  dp_impact m quantity volatility = Ok v → 0 ≤ v ∧ v ≤ dec 1 10.
Proof.
  unfold dp_impact. destruct (_calculate_optimal_trajectory _ _ _ _) as [r|]; [|done].
  cbn [bind]. destruct (py_div _ _) as [u|]; [|done]. cbn [bind].
  intros [= <-]. destruct (clamp_range (u * (quantity / dec 10000 1))). done.
Qed.

Lemma fallback_impact_range np_sqrt orderbook quantity mid :
  (∀ x, 0 ≤ np_sqrt x) →
  OrderBook.get_mid_price orderbook = Some mid →
  ∃ depth,
    Liquidity.asks_below (Some mid) (dec 1005 1000) (OrderBook.asks orderbook)
    = Ok depth ∧
    fallback_impact np_sqrt orderbook quantity
    = Ok (py_min (dec 1 10) (dec 2 100 * np_sqrt (relative_size quantity depth))) ∧
    0 ≤ py_min (dec 1 10) (dec 2 100 * np_sqrt (relative_size quantity depth)) ∧
    py_min (dec 1 10) (dec 2 100 * np_sqrt (relative_size quantity depth)) ≤ dec 1 10.
Proof.
  intros Hsqrt Hm. unfold fallback_impact. rewrite Hm.
  destruct (Liquidity.asks_below_Some mid (dec 1005 1000) (OrderBook.asks orderbook))
    as [depth Hd].
  exists depth. rewrite Hd. cbn [bind]. repeat split; try done.
  - pose proof (Hsqrt (relative_size quantity depth)). case_minmax; qc_lra.
  - case_minmax; qc_lra.
Qed.

(** With a non-zero mid price the calibration returns, keeps the exponents
    and the risk aversion, and sets both coefficients. *)
Lemma _adjust_params_from_orderbook_Ok m orderbook quantity mid :
  OrderBook.get_mid_price orderbook = Some mid → mid ≠ 0 →
  ∃ depth spread,
    Liquidity.asks_below (Some mid) (dec 1005 1000) (OrderBook.asks orderbook)
    = Ok depth ∧
    OrderBook.get_spread orderbook = Ok (Some spread) ∧
    _adjust_params_from_orderbook m orderbook quantity
    = (Ok (),
       {| temp_impact_alpha := temp_impact_alpha m;
          perm_impact_beta := perm_impact_beta m;
          temp_impact_eta := coefficient (dec 2 1) (relative_size quantity depth);
          perm_impact_gamma := coefficient (dec 10 1) (spread / mid);
          risk_aversion := risk_aversion m |}).
Proof.
  intros Hm Hne. unfold _adjust_params_from_orderbook. rewrite Hm.
  destruct (Liquidity.asks_below_Some mid (dec 1005 1000) (OrderBook.asks orderbook))
    as [depth Hd].
  destruct (OrderBook.get_spread_Some _ _ Hm Hne) as [spread Hs].
  exists depth, spread. rewrite Hd, Hs. cbn [bind].
  rewrite OrderBook.py_div_Ok by done. done.
Qed.

Section range.

(** All that is used of [np.sqrt] is that its result is not negative. *)
Variable np_sqrt : Qc → Qc.
Hypothesis np_sqrt_nonneg : ∀ x, 0 ≤ np_sqrt x.

(** C3 (as amended). On every book whose mid price is available and
    non-zero, for every quantity and volatility, [calculate_impact] returns
    a value in [0, 0.1]: the DP path returns a value clamped to [0, 0.1],
    and the fallback path returns [min(0.1, 0.02 * sqrt(relative_size))]
    computed from the ask depth, which lies in [0, 0.1] too. *)
Theorem calculate_impact_in_range
    (m : t) (orderbook : OrderBook.t) (quantity volatility mid : Qc) :
  OrderBook.get_mid_price orderbook = Some mid →
  mid ≠ 0 →
  (∃ v m',
     calculate_impact np_sqrt m orderbook quantity volatility = (Ok v, m') ∧
     0 ≤ v ∧ v ≤ dec 1 10) ∧
  (∀ m' v, dp_impact m' quantity volatility = Ok v → 0 ≤ v ∧ v ≤ dec 1 10) ∧
  (∃ depth v,
     Liquidity.asks_below (Some mid) (dec 1005 1000) (OrderBook.asks orderbook)
     = Ok depth ∧
     fallback_impact np_sqrt orderbook quantity = Ok v ∧
     v = py_min (dec 1 10) (dec 2 100 * np_sqrt (relative_size quantity depth)) ∧
     0 ≤ v ∧ v ≤ dec 1 10).
Proof using np_sqrt_nonneg.
  intros Hm Hne.
  destruct (fallback_impact_range np_sqrt orderbook quantity mid np_sqrt_nonneg Hm)
    as (depth & Hd & Hf & Hf0 & Hf1).
  split; [|split].
  - unfold calculate_impact.
    destruct (_adjust_params_from_orderbook_Ok m orderbook quantity mid Hm Hne)
      as (depth' & spread & _ & _ & ->).
    destruct (dp_impact _ quantity volatility) as [v|] eqn:Hdp.
    + apply dp_impact_range in Hdp as [??]. by eexists _, _.
    + rewrite Hf. by eexists _, _.
  - intros m' v Hdp. by apply dp_impact_range in Hdp.
  - by exists depth, (py_min (dec 1 10) (dec 2 100 * np_sqrt (relative_size quantity depth))).
Qed.

(** C10. The impact depends on the bid side only through the best bid
    price: two books with the same ask levels and the same best bid price
    give the same result (and the same calibrated parameters) for the same
    quantity and volatility, whatever their bid quantities and deeper bid
    levels. *)
Theorem calculate_impact_ignores_bid_depth
    (m : t) (ob1 ob2 : OrderBook.t) (quantity volatility : Qc) :
  OrderBook.asks ob1 = OrderBook.asks ob2 →
  (OrderBook.get_best_bid ob1).1 = (OrderBook.get_best_bid ob2).1 →
  calculate_impact np_sqrt m ob1 quantity volatility
  = calculate_impact np_sqrt m ob2 quantity volatility.
Proof.
  intros Ha Hb.
  assert (Hmid : OrderBook.get_mid_price ob1 = OrderBook.get_mid_price ob2).
  { unfold OrderBook.get_mid_price, OrderBook.get_best_ask. by rewrite Ha, Hb. }
  assert (Hspread : OrderBook.get_spread ob1 = OrderBook.get_spread ob2).
  { unfold OrderBook.get_spread, OrderBook.get_best_ask. by rewrite Ha, Hb. }
  unfold calculate_impact, _adjust_params_from_orderbook, fallback_impact.
  by rewrite Ha, Hmid, Hspread.
Qed.

End range.

Lemma sqrt_stub_nonneg x : 0 ≤ sqrt_stub x.
Proof.
  unfold sqrt_stub. apply Qc_le_this. rewrite (this_Q2Qc (_ # 1000)).
  change (this 0) with 0%Q. unfold Qle. cbn [Qnum Qden].
  pose proof (Z.sqrt_nonneg
    (Qnum (x * dec 1000000 1) / Z.pos (Qden (x * dec 1000000 1)))). lia.
Qed.

Lemma calculate_impact_in_range_witness :
  OrderBook.get_mid_price wide_book = Some (dec 201 2) ∧
  dec 201 2 ≠ 0 ∧
  ∃ v m',
    calculate_impact sqrt_stub init wide_book (dec 5 4) (dec 50 1) = (Ok v, m') ∧
    0 ≤ v ∧ v ≤ dec 1 10.
Proof.
  assert (Hm : OrderBook.get_mid_price wide_book = Some (dec 201 2)) by compute_done.
  assert (Hne : dec 201 2 ≠ 0) by compute_done.
  split; [exact Hm|]. split; [exact Hne|].
  exact (proj1 (calculate_impact_in_range sqrt_stub sqrt_stub_nonneg init wide_book
                  (dec 5 4) (dec 50 1) (dec 201 2) Hm Hne)).
Defined.

(** C3 as stated fails: on the empty book [calculate_impact] returns
    nothing, it raises [TypeError]; the calibration runs before the [try]
    and divides the missing spread by the missing mid price. *)
Lemma calculate_impact_on_empty_book_raises :
  (calculate_impact sqrt_stub init (OrderBook.init "BTC-USDT-SWAP" 100)
     (dec 1 1) (dec 1 1)).1
  = Raise TypeError.
Proof. reflexivity. Qed.

Lemma calculate_impact_ignores_bid_depth_witness :
  OrderBook.asks wide_book = OrderBook.asks wide_book_other_bids ∧
  (OrderBook.get_best_bid wide_book).1 = (OrderBook.get_best_bid wide_book_other_bids).1 ∧
  OrderBook.bids wide_book ≠ OrderBook.bids wide_book_other_bids ∧
  calculate_impact sqrt_stub init wide_book (dec 5 4) (dec 50 1)
  = calculate_impact sqrt_stub init wide_book_other_bids (dec 5 4) (dec 50 1).
Proof.
  assert (Ha : OrderBook.asks wide_book = OrderBook.asks wide_book_other_bids)
    by compute_done.
  assert (Hb : (OrderBook.get_best_bid wide_book).1
               = (OrderBook.get_best_bid wide_book_other_bids).1) by compute_done.
  split; [exact Ha|]. split; [exact Hb|]. split; [compute_done|].
  exact (calculate_impact_ignores_bid_depth sqrt_stub init wide_book
           wide_book_other_bids (dec 5 4) (dec 50 1) Ha Hb).
Defined.

(** *** Shape of the planned trajectory *)











(** *** Size of the total impact *)












(** *** The normalised quantity *)






(** *** The result as a formula *)








(** *** Small orders, and orders that share a trajectory *)




Section limits.

Variable np_sqrt : Qc → Qc.


End limits.




End MarketImpactModel.

(** ** [ws/okx_ws.py]: class [OKXWebsocket]

    The client sits on the [websocket-client] library.  Of that library
    the model keeps what the client relies on: a [WebSocketApp] is an object
    with callbacks; constructing it opens no connection; only
    [run_forever], which [start] runs in a thread, connects and dispatches
    [on_open] and [on_close], and it returns after [on_close].  Time and
    I/O appear as a trace of effects. *)

Module OKXWebsocket.

Inductive message : Type :=
  | Login
  | Subscribe (symbol : string)
  | Unsubscribe (symbol : string)
  | Ping.

Inductive effect : Type :=
  | NewApp (app : nat)                   (* websocket.WebSocketApp(endpoint, ...) *)
  | RunForever (app : nat)               (* Thread(target=ws.run_forever).start() *)
  | Send (app : nat) (msg : message)     (* ws.send(json.dumps(...)) *)
  | Close (app : nat)                    (* ws.close() *)
  | Sleep (seconds : Z)                  (* time.sleep(seconds) *)
  | StartPing.                           (* Thread(target=self._ping).start() *)

Global Instance message_eq_dec : EqDecision message.
Proof. solve_decision. Defined.
Global Instance effect_eq_dec : EqDecision effect.
Proof. solve_decision. Defined.

(** The attributes of the client. [ws] and [ws_thread] name a
    [WebSocketApp] by the order of its creation. *)
Record t : Type := mk {
  api_key : string;
  api_secret : string;
  passphrase : string;
  ws : option nat;
  ws_thread : option nat;
  is_connected : bool;
  subscriptions : gset string;
  should_reconnect : bool
}.

(** The client, the library objects and the effects so far: [apps] counts
    the [WebSocketApp] objects created, [running] holds those whose
    [run_forever] is executing. *)
Record world : Type := mk_world {
  client : t;
  apps : nat;
  running : gset nat;
  trace : list effect
}.

(** [OKXWebsocket.__init__] *)
Definition init (api_key api_secret : string) : world :=
  {| client := {| api_key := api_key; api_secret := api_secret; passphrase := "";
                  ws := None; ws_thread := None; is_connected := false;
                  subscriptions := ∅; should_reconnect := true |};
     apps := 0; running := ∅; trace := [] |}.

Definition emit (w : world) (es : list effect) : world :=
  {| client := client w; apps := apps w; running := running w;
     trace := trace w ++ es |}.

Definition with_client (w : world) (c : t) : world :=
  {| client := c; apps := apps w; running := running w; trace := trace w |}.

(** [OKXWebsocket.connect]: builds the [WebSocketApp] and stores it; nothing
    is run. *)
Definition connect (w : world) : world :=
  let c := client w in
  {| client := {| api_key := api_key c; api_secret := api_secret c;
                  passphrase := passphrase c;
                  ws := Some (apps w); ws_thread := ws_thread c;
                  is_connected := is_connected c;
                  subscriptions := subscriptions c;
                  should_reconnect := should_reconnect c |};
     apps := S (apps w); running := running w;
     trace := trace w ++ [NewApp (apps w)] |}.

(** [self.ws_thread is not None and self.ws_thread.is_alive()] *)
Definition thread_alive (w : world) : bool :=
  match ws_thread (client w) with
  | Some app => bool_decide (app ∈ running w)
  | None => false
  end.

(** [OKXWebsocket.start] *)
Definition start (w : world) : world :=
  if thread_alive w then w
  else
    let c := client w in
    let w1 := connect (with_client w
                {| api_key := api_key c; api_secret := api_secret c;
                   passphrase := passphrase c; ws := ws c; ws_thread := ws_thread c;
                   is_connected := is_connected c;
                   subscriptions := subscriptions c;
                   should_reconnect := true |}) in
    let c1 := client w1 in
    match ws c1 with
    | Some app =>
        {| client := {| api_key := api_key c1; api_secret := api_secret c1;
                        passphrase := passphrase c1; ws := ws c1;
                        ws_thread := Some app;
                        is_connected := is_connected c1;
                        subscriptions := subscriptions c1;
                        should_reconnect := should_reconnect c1 |};
           apps := apps w1; running := running w1 ∪ {[app]};
           trace := trace w1 ++ [RunForever app] |}
    | None => w1
    end.

(** [OKXWebsocket._subscribe]: sends only [if self.is_connected and
    self.ws]. *)
Definition _subscribe (w : world) (symbol : string) : world :=
  match ws (client w) with
  | Some app =>
      if is_connected (client w) then emit w [Send app (Subscribe symbol)] else w
  | None => w
  end.

(** [OKXWebsocket._login]; it is only called from [_on_open], where [ws]
    is set. *)
Definition _login (w : world) : world :=
  match ws (client w) with
  | Some app => emit w [Send app Login]
  | None => w
  end.

Definition set_connected (w : world) (b : bool) : world :=
  let c := client w in
  with_client w
    {| api_key := api_key c; api_secret := api_secret c; passphrase := passphrase c;
       ws := ws c; ws_thread := ws_thread c; is_connected := b;
       subscriptions := subscriptions c; should_reconnect := should_reconnect c |}.

(** [OKXWebsocket._on_open]; the keep-alive thread is recorded as an effect
    only. *)
Definition _on_open (w : world) : world :=
  let w := set_connected w true in
  let w :=
    if negb (String.eqb (api_key (client w)) "")
       && negb (String.eqb (api_secret (client w)) "")
    then _login w else w in
  let w := foldl _subscribe w (elements (subscriptions (client w))) in
  emit w [StartPing].

(** [OKXWebsocket._on_close] *)
Definition _on_close (w : world) : world :=
  let w := set_connected w false in
  if should_reconnect (client w)
  then connect (emit w [Sleep 5])
  else w.

(** [OKXWebsocket.stop] *)
Definition stop (w : world) : world :=
  let c := client w in
  let w :=
    with_client w
      {| api_key := api_key c; api_secret := api_secret c; passphrase := passphrase c;
         ws := ws c; ws_thread := ws_thread c; is_connected := is_connected c;
         subscriptions := subscriptions c; should_reconnect := false |} in
  match ws (client w) with
  | Some app => if is_connected (client w) then emit w [Close app] else w
  | None => w
  end.

Definition set_subscriptions (w : world) (s : gset string) : world :=
  let c := client w in
  with_client w
    {| api_key := api_key c; api_secret := api_secret c; passphrase := passphrase c;
       ws := ws c; ws_thread := ws_thread c; is_connected := is_connected c;
       subscriptions := s; should_reconnect := should_reconnect c |}.

(** [OKXWebsocket.subscribe] *)
Definition subscribe (w : world) (symbol : string) : world :=
  let w := set_subscriptions w (subscriptions (client w) ∪ {[symbol]}) in
  if is_connected (client w) then _subscribe w symbol else w.

(** [OKXWebsocket.unsubscribe] *)
Definition unsubscribe (w : world) (symbol : string) : world :=
  if decide (symbol ∈ subscriptions (client w)) then
    let w := set_subscriptions w (subscriptions (client w) ∖ {[symbol]}) in
    match ws (client w) with
    | Some app =>
        if is_connected (client w) then emit w [Send app (Unsubscribe symbol)] else w
    | None => w
    end
  else w.

(** What can happen to the client: calls by the application, and callbacks
    dispatched by the [run_forever] of an app. *)
Inductive event : Type :=
  | CallStart
  | CallStop
  | CallSubscribe (symbol : string)
  | CallUnsubscribe (symbol : string)
  | Opened (app : nat)
  | Closed (app : nat).

(** One event; [None] when the event cannot happen: callbacks come only
    from an app that is being run, and [run_forever] returns after
    [on_close]. *)
Definition step (w : world) (e : event) : option world :=
  match e with
  | CallStart => Some (start w)
  | CallStop => Some (stop w)
  | CallSubscribe s => Some (subscribe w s)
  | CallUnsubscribe s => Some (unsubscribe w s)
  | Opened app =>
      if decide (app ∈ running w) then Some (_on_open w) else None
  | Closed app =>
      if decide (app ∈ running w) then
        let w' := _on_close w in
        Some {| client := client w'; apps := apps w';
                running := running w' ∖ {[app]}; trace := trace w' |}
      else None
  end.

Fixpoint steps (w : world) (es : list event) : option world :=
  match es with
  | [] => Some w
  | e :: es' =>
      match step w e with
      | Some w' => steps w' es'
      | None => None
      end
  end.

Definition is_callback (e : event) : Prop :=
  match e with
  | Opened _ | Closed _ => True
  | _ => False
  end.

(** The client of the application: credentials set, one symbol tracked,
    started, and its connection open. *)
Definition live_world : option world :=
  steps (init "key" "secret") [CallSubscribe "BTC-USDT-SWAP"; CallStart; Opened 0].

(** What the code does do on an open connection: whenever [_on_open] runs
    on a client with a [WebSocketApp], every symbol of the subscription set
    is subscribed on it. *)
Lemma foldl_subscribe_trace w app symbols :
  ws (client w) = Some app → is_connected (client w) = true →
  let w' := foldl _subscribe w symbols in
  trace w' = trace w ++ ((λ s, Send app (Subscribe s)) <$> symbols) ∧
  client w' = client w ∧ apps w' = apps w ∧ running w' = running w.
Proof.
  revert w. induction symbols as [|s l IH]; intros w Hws Hc; cbn [foldl fmap list_fmap].
  - by rewrite app_nil_r.
  - assert (Hs : _subscribe w s = emit w [Send app (Subscribe s)]).
    { unfold _subscribe. by rewrite Hws, Hc. }
    rewrite Hs. destruct (IH (emit w [Send app (Subscribe s)]) Hws Hc)
      as (Ht & Hcl & Ha & Hr).
    cbv zeta in *. rewrite Ht, Hcl, Ha, Hr. cbn [emit trace client apps running].
    by rewrite <- app_assoc.
Qed.

Lemma _on_open_resubscribes w app symbol :
  ws (client w) = Some app →
  symbol ∈ subscriptions (client w) →
  Send app (Subscribe symbol) ∈ trace (_on_open w).
Proof.
  intros Hws Hin. unfold _on_open.
  set (w1 := set_connected w true).
  set (w2 := if negb (String.eqb (api_key (client w1)) "")
                && negb (String.eqb (api_secret (client w1)) "")
             then _login w1 else w1).
  assert (H2 : ws (client w2) = Some app ∧ is_connected (client w2) = true
               ∧ subscriptions (client w2) = subscriptions (client w)).
  { unfold w2. destruct (_ && _); [|done]. unfold _login.
    change (ws (client w1)) with (ws (client w)). by rewrite Hws. }
  destruct H2 as (Hws2 & Hc2 & Hsub).
  destruct (foldl_subscribe_trace w2 app (elements (subscriptions (client w2)))
              Hws2 Hc2) as (Ht & _).
  cbn [emit trace]. rewrite Ht, Hsub.
  apply elem_of_app. left. apply elem_of_app. right.
  apply list_elem_of_fmap. exists symbol. split; [done|]. by apply elem_of_elements.
Qed.

(** C6 (the code departs from the specification). When the app being run is
    closed while [should_reconnect] is true, [_on_close] sleeps 5 seconds
    and calls [connect] once, but [connect] only builds a new
    [WebSocketApp]: nothing runs it ([start] is the only place that calls
    [run_forever]).  After the close no app is running, so no callback can
    ever be dispatched again: the connection is not re-opened and no
    symbol is resubscribed. *)
Theorem close_builds_an_app_that_is_never_run (w : world) (app : nat) :
  running w = {[app]} →
  should_reconnect (client w) = true →
  ∃ w',
    step w (Closed app) = Some w' ∧
    trace w' = trace w ++ [Sleep 5; NewApp (apps w)] ∧
    ws (client w') = Some (apps w) ∧
    is_connected (client w') = false ∧
    subscriptions (client w') = subscriptions (client w) ∧
    running w' = ∅ ∧
    ∀ e, is_callback e → step w' e = None.
Proof.
  intros Hrun Hre.
  destruct w as [[key secret pass w_ws w_thread conn subs re] n r tr].
  cbn [client should_reconnect running apps trace subscriptions] in *. subst r re.
  eexists. split.
  - unfold step. cbn [running]. rewrite decide_True by set_solver.
    unfold _on_close, set_connected, with_client, connect, emit.
    cbn [client should_reconnect apps running trace api_key api_secret passphrase
         ws ws_thread is_connected subscriptions].
    reflexivity.
  - cbn [client trace ws is_connected subscriptions running].
    rewrite <- app_assoc, difference_diag_L.
    repeat split; try done.
    intros [| | | |a|a] He; try done; unfold step; cbn [running];
      by rewrite decide_False by apply not_elem_of_empty.
Qed.

Example live_world_trace :
  trace <$> live_world
  = Some [NewApp 0; RunForever 0; Send 0 Login;
          Send 0 (Subscribe "BTC-USDT-SWAP"); StartPing].
Proof. compute_done. Qed.

Lemma close_builds_an_app_that_is_never_run_witness :
  ∃ w,
    live_world = Some w ∧ running w = {[0%nat]} ∧
    should_reconnect (client w) = true ∧
    "BTC-USDT-SWAP" ∈ subscriptions (client w) ∧
    ∃ w',
      step w (Closed 0) = Some w' ∧
      trace w' = trace w ++ [Sleep 5; NewApp 1] ∧
      ws (client w') = Some 1%nat ∧
      is_connected (client w') = false ∧
      subscriptions (client w') = subscriptions (client w) ∧
      running w' = ∅ ∧
      ∀ e, is_callback e → step w' e = None.
Proof.
  destruct live_world as [w|] eqn:Hw; [|by vm_compute in Hw].
  assert (Hrun : running w = {[0%nat]}).
  { vm_compute in Hw. injection Hw as <-. compute_done. }
  assert (Hre : should_reconnect (client w) = true).
  { vm_compute in Hw. by injection Hw as <-. }
  assert (Hsub : "BTC-USDT-SWAP" ∈ subscriptions (client w)).
  { vm_compute in Hw. injection Hw as <-. compute_done. }
  assert (Happs : apps w = 1%nat).
  { vm_compute in Hw. by injection Hw as <-. }
  exists w. repeat (split; [done|]).
  rewrite <- Happs.
  exact (close_builds_an_app_that_is_never_run w 0 Hrun Hre).
Defined.

End OKXWebsocket.
